(** * CarSimulator: the per-frame car simulation, its input flags and telemetry

    A shallow embedding of the [CarSimulator] component
    (src/unnamed/part_000).  JavaScript numbers are modelled as the real
    numbers of the Standard Library: every arithmetic operation is exact,
    and the values NaN, the two infinities and the negative zero do not
    occur.  [Math.cos], [Math.sin] and [Math.PI] are [cos], [sin] and [PI].
    Where the rounding of binary64 decides a result, the steering update
    is given twice more: with an explicit rounding function, and on the
    primitive binary64 numbers.
    The React references ([carStateRef], [controlsRef], [lastFrameRef],
    [lastPublishRef]), the [telemetry] state and the state of the five
    control buttons become the fields of one record that every handler
    takes and returns; the render that follows a [setTelemetry], with the
    button effects it runs again, is the function [rerender]. *)

From Stdlib Require Import Reals Lra Lia ZArith Bool List String.
From Stdlib Require PrimFloat.
Import ListNotations.

Open Scope R_scope.

Module CarSimulator.

(** ** JavaScript operators on numbers *)

(** [a < b] as a boolean. *)
Definition ltb (a b : R) : bool := if Rlt_dec a b then true else false.

(** [Math.sign]. *)
Definition Math_sign (r : R) : R :=
  if Rlt_dec 0 r then 1 else if Rlt_dec r 0 then -1 else 0.

(** [a || b] on numbers: [b] when [a] is zero, [a] otherwise. *)
Definition num_or (a b : R) : R := if Req_dec_T a 0 then b else a.

(** Rounding towards zero. *)
Definition Ztrunc (r : R) : Z :=
  if Rle_dec 0 r then Zfloor r else (- Zfloor (- r))%Z.

(** [a % b]: the remainder has the sign of the dividend. *)
Definition num_rem (a b : R) : R := a - b * IZR (Ztrunc (a / b)).

(** ** Types and constants *)

Inductive ControlKey : Type := throttle | brake | left | right | reverse.

Record CarState : Type := mkCar {
  x : R;
  y : R;
  velocity : R;
  heading : R;
  steering : R
}.

Record Telemetry : Type := mkTelemetry {
  speed : R;
  headingDeg : R;
  acceleration : R
}.

Definition CANVAS_WIDTH : R := 720.
Definition CANVAS_HEIGHT : R := 480.
Definition MAX_SPEED : R := 22.
Definition MAX_REVERSE_SPEED : R := -6.
Definition ACCELERATION : R := 8.
Definition BRAKE_FORCE : R := 14.
Definition ROLLING_RESISTANCE : R := 2.
Definition TURN_RATE : R := PI.
Definition STEERING_SMOOTHING : R := 4.
Definition PUBLISH_INTERVAL : R := 120.

(** [Record<ControlKey, boolean>]: one flag per control. *)
Record Controls : Type := mkControls {
  c_throttle : bool;
  c_brake : bool;
  c_left : bool;
  c_right : bool;
  c_reverse : bool
}.

(** [controls[control]]. *)
Definition flag (controls : Controls) (control : ControlKey) : bool :=
  match control with
  | throttle => c_throttle controls
  | brake => c_brake controls
  | left => c_left controls
  | right => c_right controls
  | reverse => c_reverse controls
  end.

(** [controls[control] = active]. *)
Definition setFlag (controls : Controls) (control : ControlKey) (active : bool)
  : Controls :=
  match control with
  | throttle => mkControls active (c_brake controls) (c_left controls)
                  (c_right controls) (c_reverse controls)
  | brake => mkControls (c_throttle controls) active (c_left controls)
               (c_right controls) (c_reverse controls)
  | left => mkControls (c_throttle controls) (c_brake controls) active
              (c_right controls) (c_reverse controls)
  | right => mkControls (c_throttle controls) (c_brake controls)
               (c_left controls) active (c_reverse controls)
  | reverse => mkControls (c_throttle controls) (c_brake controls)
                 (c_left controls) (c_right controls) active
  end.

Definition noControls : Controls := mkControls false false false false false.

Definition KEY_MAP (code : string) : option ControlKey :=
  if String.eqb code "ArrowUp" then Some throttle
  else if String.eqb code "KeyW" then Some throttle
  else if String.eqb code "ArrowDown" then Some brake
  else if String.eqb code "KeyS" then Some reverse
  else if String.eqb code "ArrowLeft" then Some left
  else if String.eqb code "KeyA" then Some left
  else if String.eqb code "ArrowRight" then Some right
  else if String.eqb code "KeyD" then Some right
  else if String.eqb code "KeyX" then Some brake
  else None.

Definition INITIAL_STATE : CarState :=
  mkCar (CANVAS_WIDTH / 2) (CANVAS_HEIGHT / 2) 0 (- PI / 2) 0.

(** ** The simulation step (renderFrame, lines 197-245) *)

Definition intendedSteer (controls : Controls) : R :=
  if Bool.eqb (c_left controls) (c_right controls) then 0
  else if c_left controls then -1 else 1.

(** Lines 205-221: the net acceleration, accumulated term by term. *)
Definition netAcceleration (controls : Controls) (velocity0 : R) : R :=
  let acceleration := 0 in
  let acceleration :=
    if c_throttle controls then acceleration + ACCELERATION
    else acceleration in
  let acceleration :=
    if c_reverse controls then acceleration - ACCELERATION * 0.6
    else acceleration in
  let acceleration :=
    if c_brake controls && ltb 0 velocity0 then acceleration - BRAKE_FORCE
    else if c_brake controls then acceleration - ACCELERATION
    else acceleration in
  let resistance := ROLLING_RESISTANCE * Math_sign (num_or velocity0 1) in
  let friction := - resistance in
  acceleration + friction.

(** Lines 223-234: integration, the two clamps and the snap to rest. *)
Definition nextVelocity (controls : Controls) (velocity0 acceleration dt : R)
  : R :=
  let velocity := velocity0 + acceleration * dt in
  let velocity := if ltb MAX_SPEED velocity then MAX_SPEED else velocity in
  let velocity :=
    if ltb velocity MAX_REVERSE_SPEED then MAX_REVERSE_SPEED else velocity in
  if negb (c_throttle controls) && negb (c_reverse controls)
     && ltb (Rabs velocity) 0.2 && ltb (Rabs acceleration) 0.5
  then 0 else velocity.

(** [if (v < lo) v = lo; if (v > hi) v = hi;] *)
Definition clampTo (lo hi v : R) : R :=
  let v := if ltb v lo then lo else v in
  if ltb hi v then hi else v.

(** One frame of physics: the next car state and the acceleration used. *)
Definition step (car : CarState) (dt : R) (controls : Controls)
  : CarState * R :=
  let steerDelta := intendedSteer controls - steering car in
  let steering1 :=
    steering car + steerDelta * Rmin (STEERING_SMOOTHING * dt) 1 in
  let acceleration := netAcceleration controls (velocity car) in
  let velocity1 := nextVelocity controls (velocity car) acceleration dt in
  let turnIntensity := Rmin (Rabs velocity1 / MAX_SPEED) 1 in
  let heading1 := heading car + steering1 * TURN_RATE * dt * turnIntensity in
  let x1 := x car + cos heading1 * velocity1 * dt * 60 in
  let y1 := y car + sin heading1 * velocity1 * dt * 60 in
  let x2 := clampTo 24 (CANVAS_WIDTH - 24) x1 in
  let y2 := clampTo 24 (CANVAS_HEIGHT - 24) y1 in
  (mkCar x2 y2 velocity1 heading1 steering1, acceleration).

(** Lines 255-259: the telemetry published for a car state. *)
Definition publishedTelemetry (car : CarState) (acceleration : R)
  : Telemetry :=
  mkTelemetry (Rabs (velocity car) * 3.6)
              (num_rem (heading car * 180 / PI + 360) 360)
              acceleration.

(** ** The control button (ControlButton, lines 419-455) *)

(** The [isActive] state and the [pointerCount] reference of one button. *)
Record Button : Type := mkButton {
  isActive : bool;
  pointerCount : Z
}.

Definition initialButton : Button := mkButton false 0.

Definition handlePointerDown (b : Button) : Button :=
  mkButton true (pointerCount b + 1).

Definition handlePointerUp (b : Button) : Button :=
  let count := Z.max 0 (pointerCount b - 1) in
  if (count =? 0)%Z then mkButton false count
  else mkButton (isActive b) count.

(** The listener of [mouseup], [touchend] and [touchcancel] on the
    window. *)
Definition cancel (b : Button) : Button := mkButton false 0.

Inductive PointerEvent : Type :=
| PointerDown
| PointerUp
| PointerCancel
| WindowRelease.

Definition handlePointer (b : Button) (e : PointerEvent) : Button :=
  match e with
  | PointerDown => handlePointerDown b
  | PointerUp => handlePointerUp b
  | PointerCancel => handlePointerUp b
  | WindowRelease => cancel b
  end.

(** The pointer events other than a pointer-down. *)
Definition isLift (e : PointerEvent) : bool :=
  match e with
  | PointerDown => false
  | PointerUp | PointerCancel | WindowRelease => true
  end.

Definition pointerRun (events : list PointerEvent) (b : Button) : Button :=
  fold_left handlePointer events b.

(** ** The component state and its handlers *)

Definition ControlKey_eqb (a b : ControlKey) : bool :=
  match a, b with
  | throttle, throttle | brake, brake | left, left
  | right, right | reverse, reverse => true
  | _, _ => false
  end.

(** The references and the state of [CarSimulator], and the state of its
    five control buttons. *)
Record Sim : Type := mkSim {
  carStateRef : CarState;
  controlsRef : Controls;
  lastFrameRef : option R;
  lastPublishRef : R;
  telemetry : Telemetry;
  buttons : ControlKey -> Button
}.

Definition initialSim : Sim :=
  mkSim INITIAL_STATE noControls None 0 (mkTelemetry 0 0 0)
        (fun _ => initialButton).

Definition applyControl (control : ControlKey) (active : bool) (s : Sim)
  : Sim :=
  mkSim (carStateRef s) (setFlag (controlsRef s) control active)
        (lastFrameRef s) (lastPublishRef s) (telemetry s) (buttons s).

(** The controls of the buttons, in the order of [controlButtons]
    (lines 315-324). *)
Definition controlButtons : list ControlKey :=
  [throttle; brake; reverse; left; right].

(** A render of [CarSimulator], which every [setTelemetry] causes: each
    button receives a new [onChange] function (line 379), so that its
    effect (lines 425-427) runs again and calls [applyControl] with its
    own [isActive]. *)
Definition rerender (s : Sim) : Sim :=
  fold_left
    (fun s control => applyControl control (isActive (buttons s control)) s)
    controlButtons s.

(** The flags as the buttons alone give them. *)
Definition activeFlags (s : Sim) : Controls :=
  mkControls (isActive (buttons s throttle)) (isActive (buttons s brake))
             (isActive (buttons s left)) (isActive (buttons s right))
             (isActive (buttons s reverse)).

Definition resetSimulation (s : Sim) : Sim :=
  rerender
    (mkSim INITIAL_STATE (controlsRef s) None (lastPublishRef s)
           (mkTelemetry 0 0 0) (buttons s)).

Definition handleKey (code : string) (isDown : bool) (s : Sim) : Sim :=
  match KEY_MAP code with
  | None => s
  | Some controlKey => applyControl controlKey isDown s
  end.

Definition handleVisibility (visible : bool) (s : Sim) : Sim :=
  if negb visible
  then mkSim (carStateRef s) noControls (lastFrameRef s) (lastPublishRef s)
             (telemetry s) (buttons s)
  else s.

(** A pointer event on the button of [control]: the handler updates the
    button, and when its [isActive] has changed the button renders again
    and its effect (lines 425-427) reports the new value. *)
Definition handleButton (control : ControlKey) (e : PointerEvent) (s : Sim)
  : Sim :=
  let before := buttons s control in
  let after := handlePointer before e in
  let s' :=
    mkSim (carStateRef s) (controlsRef s) (lastFrameRef s)
          (lastPublishRef s) (telemetry s)
          (fun c => if ControlKey_eqb c control then after
                    else buttons s c) in
  if Bool.eqb (isActive before) (isActive after) then s'
  else applyControl control (isActive after) s'.

(** [renderFrame]; [surface] tells whether the canvas and its 2d context
    are available (lines 181-188).  A frame that publishes calls
    [setTelemetry] and is followed by a render of the component. *)
Definition renderFrame (surface : bool) (timestamp : R) (s : Sim) : Sim :=
  if negb surface then s
  else
    let previousFrame := lastFrameRef s in
    let dt := match previousFrame with
              | Some previous => (timestamp - previous) / 1000
              | None => 0
              end in
    let (car, acceleration) := step (carStateRef s) dt (controlsRef s) in
    if ltb PUBLISH_INTERVAL (timestamp - lastPublishRef s)
    then rerender
           (mkSim car (controlsRef s) (Some timestamp) timestamp
                  (publishedTelemetry car acceleration) (buttons s))
    else mkSim car (controlsRef s) (Some timestamp) (lastPublishRef s)
               (telemetry s) (buttons s).

(** What can happen to the component between two renders. *)
Inductive Event : Type :=
| KeyDown (code : string)
| KeyUp (code : string)
| VisibilityChange (visible : bool)
| ButtonPointer (control : ControlKey) (e : PointerEvent)
| ResetClick
| Frame (surface : bool) (timestamp : R).

Definition handle (s : Sim) (e : Event) : Sim :=
  match e with
  | KeyDown code => handleKey code true s
  | KeyUp code => handleKey code false s
  | VisibilityChange visible => handleVisibility visible s
  | ButtonPointer control e => handleButton control e s
  | ResetClick => resetSimulation s
  | Frame surface timestamp => renderFrame surface timestamp s
  end.

Definition run (events : list Event) (s : Sim) : Sim :=
  fold_left handle events s.

(** [n] consecutive steps with the same [dt] and the same controls. *)
Fixpoint steps (n : nat) (dt : R) (controls : Controls) (car : CarState)
  : CarState :=
  match n with
  | O => car
  | S n' => steps n' dt controls (fst (step car dt controls))
  end.

(** ** Held keys, for the keyboard claims *)

(** The codes bound in [KEY_MAP], in the order of the table. *)
Definition boundCodes : list string :=
  ["ArrowUp"; "KeyW"; "ArrowDown"; "KeyS"; "ArrowLeft"; "KeyA";
   "ArrowRight"; "KeyD"; "KeyX"]%string.

(** A keyboard event: the key code, and whether it is a key-down. *)
Definition KeyEvent : Type := (string * bool)%type.

Definition handleKeys (events : list KeyEvent) (s : Sim) : Sim :=
  fold_left (fun s e => handleKey (fst e) (snd e) s) events s.

(** Whether [code] is physically held after [events], none being held
    before: its most recent event is a key-down. *)
Definition isHeld (events : list KeyEvent) (code : string) : bool :=
  fold_left (fun held e => if String.eqb (fst e) code then snd e else held)
            events false.

Definition mapsTo (code : string) (control : ControlKey) : bool :=
  match KEY_MAP code with
  | Some c => ControlKey_eqb c control
  | None => false
  end.

(** The logical OR over the held keys bound to [control]. *)
Definition anyHeld (events : list KeyEvent) (control : ControlKey) : bool :=
  existsb (fun code => isHeld events code && mapsTo code control) boundCodes.

(** The most recent event of a key bound to [control], if any. *)
Definition lastFor (events : list KeyEvent) (control : ControlKey)
  : option bool :=
  fold_left (fun last e => if mapsTo (fst e) control then Some (snd e)
                           else last) events None.

(** ** The net acceleration, as the specification words it *)

(** The sum of the independent contributions of throttle, reverse and
    brake, minus a rolling resistance of magnitude 2 that opposes the sign
    of the velocity before the step, the sign of zero being taken as +1. *)
Definition specAcceleration (controls : Controls) (v : R) : R :=
  (if c_throttle controls then 8 else 0)
  - (if c_reverse controls then 4.8 else 0)
  - (if c_brake controls then if Rlt_dec 0 v then 14 else 8 else 0)
  - 2 * (if Req_dec_T v 0 then 1 else if Rlt_dec 0 v then 1 else -1).

(** ** The bounds of the component state *)

(** The car within its velocity bounds and the safe rectangle, and the
    displayed speed within what those velocities give. *)
Definition inBounds (s : Sim) : Prop :=
  (MAX_REVERSE_SPEED <= velocity (carStateRef s) <= MAX_SPEED)
  /\ (24 <= x (carStateRef s) <= CANVAS_WIDTH - 24)
  /\ (24 <= y (carStateRef s) <= CANVAS_HEIGHT - 24)
  /\ (0 <= speed (telemetry s) <= 79.2).

(** ** Kinds of events *)

(** The events that come from the user or the page, as opposed to the
    frames and the reset button. *)
Definition isInput (e : Event) : bool :=
  match e with
  | KeyDown _ | KeyUp _ | VisibilityChange _ | ButtonPointer _ _ => true
  | ResetClick | Frame _ _ => false
  end.

(** Whether the rendered frames of [events] carry timestamps that never go
    back, [previous] being the value of [lastFrameRef] before them. *)
Fixpoint ordered (previous : option R) (events : list Event) : Prop :=
  match events with
  | [] => True
  | Frame true t :: rest =>
      match previous with
      | Some p => p <= t
      | None => True
      end /\ ordered (Some t) rest
  | ResetClick :: rest => ordered None rest
  | _ :: rest => ordered previous rest
  end.

(** Whether a key event is of a key bound in [KEY_MAP]. *)
Definition isBound (e : KeyEvent) : bool :=
  match KEY_MAP (fst e) with
  | Some _ => true
  | None => false
  end.

(** ** The steering update with rounding (lines 197-203) *)

(** The steering update when every arithmetic operation is followed by a
    rounding [rnd].  The update of [step] is the case of the identity;
    the binary64 arithmetic of the code is the case of rounding to the
    nearest binary64 number. *)
Definition roundedSteering (rnd : R -> R) (steering0 dt : R)
    (controls : Controls) : R :=
  let steerDelta := rnd (intendedSteer controls - steering0) in
  rnd (steering0
       + rnd (steerDelta * Rmin (rnd (STEERING_SMOOTHING * dt)) 1)).



(** ** The steering update in binary64 (lines 197-203) *)

Module Binary64.
Import PrimFloat.
#[local] Open Scope float_scope.
#[local] Set Warnings "-inexact-float".


Definition STEERING_SMOOTHING : float := 4.

Definition intendedSteer (controls : Controls) : float :=
  if Bool.eqb (c_left controls) (c_right controls) then 0
  else if c_left controls then -1 else 1.



End Binary64.

(** ** Sample states, controls and runs *)

Definition parked : CarState := mkCar 360 240 0 0 0.

Definition offTrack : CarState := mkCar (-100) 9000 0 0 0.

Definition standingStart : CarState := mkCar 360 240 0 0 1.

Definition throttleRight : Controls := mkControls true false false true false.

Definition throttleOnly : Controls := mkControls true false false false false.

Definition brakeOnly : Controls := mkControls false true false false false.

Definition rightOnly : Controls := mkControls false false false true false.

Definition creeping : CarState := mkCar 360 240 0.1 0 0.

Definition throttleLeft : Controls := mkControls true false true false false.

(** The throttle and left buttons pressed and held, then four frames one
    second apart. *)
Definition leftTurn : list Event :=
  [ButtonPointer throttle PointerDown; ButtonPointer left PointerDown;
   Frame true 1000; Frame true 2000; Frame true 3000; Frame true 4000].

(** The throttle key held, then a click on the reset button. *)
Definition heldKeyThenReset : list Event := [KeyDown "ArrowUp"; ResetClick].

Definition twoKeysOneReleased : list KeyEvent :=
  [("ArrowUp", true); ("KeyW", true); ("ArrowUp", false)]%string.

(** ** Proof automation *)

Ltac unfold_consts :=
  unfold CANVAS_WIDTH, CANVAS_HEIGHT, MAX_SPEED, MAX_REVERSE_SPEED,
    ACCELERATION, BRAKE_FORCE, ROLLING_RESISTANCE, STEERING_SMOOTHING in *.

Ltac plain t :=
  lazymatch t with
  | context [Rlt_dec _ _] => fail
  | context [Rle_dec _ _] => fail
  | context [Req_dec_T _ _] => fail
  | context [Rcase_abs _] => fail
  | _ => idtac
  end.

(** Splits on every comparison that guards a conditional of the goal,
    the innermost ones first. *)
Ltac split_ifs :=
  repeat match goal with
  | |- context [Rlt_dec ?a ?b] => plain a; plain b; destruct (Rlt_dec a b)
  | |- context [Rle_dec ?a ?b] => plain a; plain b; destruct (Rle_dec a b)
  | |- context [Req_dec_T ?a ?b] =>
      plain a; plain b; destruct (Req_dec_T a b)
  | |- context [Rcase_abs ?a] => plain a; destruct (Rcase_abs a)
  end.

Ltac crush_R :=
  unfold ltb, Math_sign, num_or, Rmin, Rabs in *; unfold_consts;
  split_ifs; simpl; try lra.

(** ** Acceleration *)

Lemma step_acceleration (car : CarState) (dt : R) (controls : Controls) :
  snd (step car dt controls) = netAcceleration controls (velocity car).
Proof. reflexivity. Qed.

Lemma netAcceleration_spec (controls : Controls) (v : R) :
  netAcceleration controls v = specAcceleration controls v.
Proof.
  unfold netAcceleration, specAcceleration.
  destruct controls as [t b l r rv]; simpl.
  destruct t, b, rv; simpl; crush_R.
Qed.

(** C8. The acceleration that a step returns, and integrates into the
    velocity, is the sum of the stacked contributions: +8 for throttle,
    -4.8 for reverse, -14 for brake at a positive velocity and -8 for brake
    otherwise, and a rolling resistance of magnitude 2 against the sign of
    the velocity before the step, that sign being +1 at velocity 0. *)
Theorem step_acceleration_formula (car : CarState) (dt : R)
    (controls : Controls) :
  snd (step car dt controls) = specAcceleration controls (velocity car)
  /\ velocity (fst (step car dt controls))
     = nextVelocity controls (velocity car)
         (specAcceleration controls (velocity car)) dt.
Proof.
  rewrite step_acceleration, netAcceleration_spec.
  split; [reflexivity|].
  unfold step; simpl. now rewrite netAcceleration_spec.
Qed.

(** Without throttle and reverse the net acceleration is one of -16, -10,
    -6, -2 and 2: its magnitude is never below 2. *)
Lemma coasting_acceleration_large (controls : Controls) (v : R) :
  c_throttle controls = false -> c_reverse controls = false ->
  2 <= Rabs (netAcceleration controls v).
Proof.
  intros Ht Hr. rewrite netAcceleration_spec. unfold specAcceleration.
  rewrite Ht, Hr. destruct (c_brake controls); crush_R.
Qed.

(** Hence the guard of the snap to rest (line 232) never holds. *)
Lemma snap_guard_false (controls : Controls) (v w : R) :
  negb (c_throttle controls) && negb (c_reverse controls)
  && ltb (Rabs w) 0.2 && ltb (Rabs (netAcceleration controls v)) 0.5
  = false.
Proof.
  destruct (c_throttle controls) eqn:Ht; [reflexivity|].
  destruct (c_reverse controls) eqn:Hr; [reflexivity|].
  pose proof (coasting_acceleration_large controls v Ht Hr) as H.
  simpl. apply andb_false_intro2.
  unfold ltb. destruct (Rlt_dec _ _); [lra | reflexivity].
Qed.

(** The velocity of a step is therefore the clamped integration alone. *)
Lemma step_velocity (car : CarState) (dt : R) (controls : Controls) :
  velocity (fst (step car dt controls))
  = clampTo MAX_REVERSE_SPEED MAX_SPEED
      (velocity car + netAcceleration controls (velocity car) * dt).
Proof.
  unfold step, nextVelocity; simpl.
  rewrite snap_guard_false. unfold clampTo. crush_R.
Qed.

(** ** Bounds *)

Lemma clampTo_range (lo hi v : R) :
  lo <= hi -> lo <= clampTo lo hi v <= hi.
Proof. intros H. unfold clampTo. crush_R. Qed.

Lemma clampTo_inside (lo hi v : R) :
  lo <= v <= hi -> clampTo lo hi v = v.
Proof. intros H. unfold clampTo. crush_R. Qed.

Lemma intendedSteer_cases (controls : Controls) :
  intendedSteer controls = -1 \/ intendedSteer controls = 0
  \/ intendedSteer controls = 1.
Proof.
  unfold intendedSteer.
  destruct (c_left controls), (c_right controls); simpl; auto.
Qed.

Lemma smoothing_factor_range (dt : R) :
  0 <= dt -> 0 <= Rmin (STEERING_SMOOTHING * dt) 1 <= 1.
Proof. intros H. crush_R. Qed.

Lemma steering_range (car : CarState) (dt : R) (controls : Controls) :
  -1 <= steering car <= 1 -> 0 <= dt ->
  -1 <= steering (fst (step car dt controls)) <= 1.
Proof.
  intros Hs Hdt. unfold step; simpl.
  pose proof (smoothing_factor_range dt Hdt) as Hk.
  set (k := Rmin (STEERING_SMOOTHING * dt) 1) in *.
  destruct (intendedSteer_cases controls) as [E | [E | E]]; rewrite E; nra.
Qed.

Lemma velocity_range (car : CarState) (dt : R) (controls : Controls) :
  MAX_REVERSE_SPEED <= velocity (fst (step car dt controls)) <= MAX_SPEED.
Proof.
  rewrite step_velocity. apply clampTo_range. unfold_consts. lra.
Qed.

(** C5. A step from a state with velocity in [MAX_REVERSE_SPEED, MAX_SPEED]
    and steering in [-1, 1], with dt >= 0 and any control flags, yields a
    state with velocity in [MAX_REVERSE_SPEED, MAX_SPEED] and steering in
    [-1, 1]. *)
Theorem step_preserves_bounds (car : CarState) (dt : R)
    (controls : Controls) :
  MAX_REVERSE_SPEED <= velocity car <= MAX_SPEED ->
  -1 <= steering car <= 1 ->
  0 <= dt ->
  MAX_REVERSE_SPEED <= velocity (fst (step car dt controls)) <= MAX_SPEED
  /\ -1 <= steering (fst (step car dt controls)) <= 1.
Proof.
  intros _ Hs Hdt. split.
  - apply velocity_range.
  - now apply steering_range.
Qed.

Lemma step_preserves_bounds_witness :
  MAX_REVERSE_SPEED <= velocity (fst (step parked (1/60) noControls))
    <= MAX_SPEED
  /\ -1 <= steering (fst (step parked (1/60) noControls)) <= 1.
Proof.
  apply (step_preserves_bounds parked (1/60) noControls);
    unfold parked; unfold_consts; simpl; lra.
Defined.

Lemma position_range (car : CarState) (dt : R) (controls : Controls) :
  24 <= x (fst (step car dt controls)) <= CANVAS_WIDTH - 24
  /\ 24 <= y (fst (step car dt controls)) <= CANVAS_HEIGHT - 24.
Proof.
  unfold step; simpl.
  split; apply clampTo_range; unfold_consts; lra.
Qed.

(** C6. After a step from any state, also one whose position starts
    outside the safe rectangle, with dt >= 0 and any control flags, x is in
    [24, 696] and y is in [24, 456]. *)
Theorem step_position_clamped (car : CarState) (dt : R)
    (controls : Controls) :
  0 <= dt ->
  24 <= x (fst (step car dt controls)) <= 696
  /\ 24 <= y (fst (step car dt controls)) <= 456.
Proof.
  intros _. unfold step; simpl. split.
  - replace 696 with (CANVAS_WIDTH - 24) by (unfold_consts; lra).
    apply clampTo_range. unfold_consts. lra.
  - replace 456 with (CANVAS_HEIGHT - 24) by (unfold_consts; lra).
    apply clampTo_range. unfold_consts. lra.
Qed.

Lemma step_position_clamped_witness :
  24 <= x (fst (step offTrack (1/60) noControls)) <= 696
  /\ 24 <= y (fst (step offTrack (1/60) noControls)) <= 456.
Proof. apply (step_position_clamped offTrack (1/60) noControls). lra. Defined.

(** ** Steering with a saturated smoothing factor *)




(** With the identity for rounding, the rounded update is that of
    [step]. *)
Lemma roundedSteering_exact (car : CarState) (dt : R) (controls : Controls) :
  roundedSteering (fun a => a) (steering car) dt controls
  = steering (fst (step car dt controls)).
Proof. reflexivity. Qed.




(** ** Zero elapsed time *)

(** C7, as stated, fails: a state whose position starts outside the safe
    rectangle is moved onto its border even when dt = 0. *)
Lemma zero_dt_identity_fails :
  fst (step offTrack 0 noControls) <> offTrack.
Proof.
  intros H.
  pose proof (position_range offTrack 0 noControls) as [[Hx _] _].
  rewrite H in Hx. simpl in Hx. lra.
Qed.

(** A step with no elapsed time is the identity on the states within the
    velocity and position bounds. *)
Lemma step_zero_dt (car : CarState) (controls : Controls) :
  MAX_REVERSE_SPEED <= velocity car <= MAX_SPEED ->
  24 <= x car <= CANVAS_WIDTH - 24 ->
  24 <= y car <= CANVAS_HEIGHT - 24 ->
  fst (step car 0 controls) = car.
Proof.
  intros Hv Hx Hy.
  assert (Ev : velocity (fst (step car 0 controls)) = velocity car).
  { rewrite step_velocity, clampTo_inside; lra. }
  revert Ev. unfold step; simpl.
  set (v1 := nextVelocity _ _ _ _). intros Ev.
  set (s1 := steering car + _).
  set (h1 := heading car + _).
  assert (Es : s1 = steering car).
  { unfold s1, STEERING_SMOOTHING. rewrite Rmult_0_r, Rmin_left; lra. }
  assert (Eh : h1 = heading car) by (unfold h1; lra).
  rewrite Es, Eh, Ev.
  replace (x car + cos (heading car) * velocity car * 0 * 60) with (x car)
    by lra.
  replace (y car + sin (heading car) * velocity car * 0 * 60) with (y car)
    by lra.
  rewrite !clampTo_inside by assumption.
  now destruct car.
Qed.

(** C7, amended. For every state whose velocity is in
    [MAX_REVERSE_SPEED, MAX_SPEED] and whose position is in the safe
    rectangle, and every combination of control flags, a step with dt = 0
    returns the input state. *)
Theorem zero_dt_identity (car : CarState) (controls : Controls) :
  MAX_REVERSE_SPEED <= velocity car <= MAX_SPEED ->
  24 <= x car <= CANVAS_WIDTH - 24 ->
  24 <= y car <= CANVAS_HEIGHT - 24 ->
  fst (step car 0 controls) = car.
Proof. exact (step_zero_dt car controls). Qed.

Lemma zero_dt_identity_witness :
  fst (step parked 0 (mkControls true true false true false)) = parked.
Proof.
  apply (zero_dt_identity parked);
    unfold parked; unfold_consts; simpl; lra.
Defined.

(** ** Heading *)

Lemma step_heading (car : CarState) (dt : R) (controls : Controls) :
  heading (fst (step car dt controls))
  = heading car
    + steering (fst (step car dt controls)) * TURN_RATE * dt
      * Rmin (Rabs (velocity (fst (step car dt controls))) / MAX_SPEED) 1.
Proof. reflexivity. Qed.

(** C2, as stated, fails: from velocity 0 and steering 1, with throttle
    and right held, a step of a tenth of a second sets the car in motion
    and turns it by 0.1 * PI * 0.6 / 22. *)
Lemma zero_speed_heading_changes :
  velocity standingStart = 0 /\ steering standingStart = 1 /\ 0 <= 1/10
  /\ heading (fst (step standingStart (1/10) throttleRight))
     = heading standingStart + 3 * PI / 1100
  /\ heading (fst (step standingStart (1/10) throttleRight))
     <> heading standingStart.
Proof.
  assert (E : heading (fst (step standingStart (1/10) throttleRight))
              = heading standingStart + 3 * PI / 1100).
  { rewrite step_heading, step_velocity, netAcceleration_spec.
    unfold step, specAcceleration, clampTo, intendedSteer, TURN_RATE; simpl.
    crush_R. }
  repeat split; [lra | exact E |].
  rewrite E. pose proof PI_RGT_0. lra.
Qed.

(** C2, amended. For every state, every dt and every combination of control
    flags, if the velocity of the state that the step produces is 0, or if
    dt = 0, then the heading it produces is the heading of the input state:
    the turn is scaled by the speed after this step's velocity update. *)
Theorem heading_fixed_at_zero_speed (car : CarState) (dt : R)
    (controls : Controls) :
  velocity (fst (step car dt controls)) = 0 \/ dt = 0 ->
  heading (fst (step car dt controls)) = heading car.
Proof.
  intros [Hv | Hdt]; rewrite step_heading.
  - rewrite Hv, Rabs_R0. unfold MAX_SPEED.
    replace (0 / 22) with 0 by lra. rewrite Rmin_left; lra.
  - rewrite Hdt. lra.
Qed.

Lemma heading_fixed_at_zero_speed_witness :
  heading (fst (step (mkCar 360 240 (1/30) 0 1) (1/60) rightOnly)) = 0.
Proof.
  apply (heading_fixed_at_zero_speed (mkCar 360 240 (1/30) 0 1) (1/60)
           rightOnly).
  left. rewrite step_velocity, netAcceleration_spec.
  unfold specAcceleration, clampTo; simpl. crush_R.
Defined.

(** ** Coming to rest *)

Lemma steps_succ (n : nat) (dt : R) (controls : Controls) (car : CarState) :
  steps (S n) dt controls car
  = fst (step (steps n dt controls car) dt controls).
Proof.
  revert car. induction n as [|n IH]; intros car; [reflexivity|].
  change (steps (S (S n)) dt controls car)
    with (steps (S n) dt controls (fst (step car dt controls))).
  now rewrite IH.
Qed.

(** X8. A car at rest does not stay at rest: whatever the control flags, the
    net acceleration at velocity 0 is not zero, and no snap undoes it. *)
Lemma rest_is_not_fixed (car : CarState) (dt : R) (controls : Controls) :
  velocity car = 0 -> 0 < dt ->
  velocity (fst (step car dt controls)) <> 0.
Proof.
  intros Hv Hdt. rewrite step_velocity, netAcceleration_spec, Hv.
  unfold specAcceleration, clampTo.
  destruct (c_throttle controls), (c_reverse controls), (c_brake controls);
    crush_R.
Qed.

(** With no control held, one step of a sixtieth of a second changes the
    velocity by a thirtieth, against its sign (downwards at zero). *)
Lemma coast_down (car : CarState) :
  0 <= velocity car <= 22 ->
  velocity (fst (step car (1/60) noControls)) = velocity car - 1/30.
Proof.
  intros Hv. rewrite step_velocity, netAcceleration_spec.
  unfold specAcceleration, clampTo; simpl. crush_R.
Qed.

Lemma coast_up (car : CarState) :
  -6 <= velocity car < 0 ->
  velocity (fst (step car (1/60) noControls)) = velocity car + 1/30.
Proof.
  intros Hv. rewrite step_velocity, netAcceleration_spec.
  unfold specAcceleration, clampTo; simpl. crush_R.
Qed.

(** C1 on the code. From velocity 0.1 with no control held and
    dt = 1/60, the velocity is 0 after three steps and then alternates for
    ever between -1/30 and 0: it never stays at 0. *)
Theorem creep_never_settles (k : nat) :
  velocity (steps (3 + 2 * k) (1/60) noControls creeping) = 0
  /\ velocity (steps (4 + 2 * k) (1/60) noControls creeping) = -1/30.
Proof.
  induction k as [|k [IH0 IH1]].
  - assert (V1 : velocity (steps 1 (1/60) noControls creeping) = 1/15).
    { rewrite steps_succ, coast_down; simpl; lra. }
    assert (V2 : velocity (steps 2 (1/60) noControls creeping) = 1/30).
    { rewrite steps_succ, coast_down; rewrite V1; lra. }
    assert (V3 : velocity (steps 3 (1/60) noControls creeping) = 0).
    { rewrite steps_succ, coast_down; rewrite V2; lra. }
    split; [exact V3|].
    change (4 + 2 * 0)%nat with 4%nat.
    rewrite steps_succ, coast_down; rewrite V3; lra.
  - replace (3 + 2 * S k)%nat with (S (4 + 2 * k)) by lia.
    replace (4 + 2 * S k)%nat with (S (S (4 + 2 * k))) by lia.
    assert (V : velocity (steps (S (4 + 2 * k)) (1/60) noControls creeping)
                = 0).
    { rewrite steps_succ, coast_up; rewrite IH1; lra. }
    split; [exact V|].
    rewrite steps_succ, coast_down; rewrite V; lra.
Qed.

(** ** Telemetry heading *)

Lemma Ztrunc_nonneg (r : R) :
  0 <= r -> IZR (Ztrunc r) <= r < IZR (Ztrunc r) + 1.
Proof.
  intros H. unfold Ztrunc. destruct (Rle_dec 0 r); [|lra].
  apply Zfloor_bound.
Qed.


Lemma num_rem_nonneg (a b : R) :
  0 <= a -> 0 < b -> 0 <= num_rem a b < b.
Proof.
  intros Ha Hb. unfold num_rem.
  assert (Hq : 0 <= a / b).
  { apply Rmult_le_pos; [lra|]. apply Rlt_le, Rinv_0_lt_compat, Hb. }
  pose proof (Ztrunc_nonneg (a / b) Hq) as Ht.
  assert (E : a = b * (a / b)) by (field; lra).
  set (q := a / b) in *. set (t := IZR (Ztrunc q)) in *. nra.
Qed.


Lemma num_rem_small_neg (a b : R) :
  - b < a < 0 -> num_rem a b = a.
Proof.
  intros H. unfold num_rem.
  assert (Hb : 0 < b) by lra.
  assert (E : a = b * (a / b)) by (field; lra).
  assert (Hq : -1 < a / b < 0).
  { pose proof (Rinv_0_lt_compat b Hb). set (q := a / b) in *. nra. }
  assert (Et : Ztrunc (a / b) = 0%Z).
  { unfold Ztrunc. destruct (Rle_dec 0 (a / b)); [lra|].
    rewrite (Zfloor_eq 0 (- (a / b))); [reflexivity | simpl; lra]. }
  rewrite Et. simpl. lra.
Qed.

Lemma degrees (h : R) : h * 180 / PI = h / PI * 180.
Proof. field. apply PI_neq0. Qed.

(** X12. From a heading of at least -2 PI the published angle is in
    [0, 360). *)
Lemma headingDeg_normalized (car : CarState) (a : R) :
  - 2 * PI <= heading car ->
  0 <= headingDeg (publishedTelemetry car a) < 360.
Proof.
  intros H. simpl. apply num_rem_nonneg; [|lra].
  rewrite degrees. pose proof PI_RGT_0 as Hpi.
  assert (-2 <= heading car / PI); [|lra].
  apply (Rmult_le_reg_r PI); [exact Hpi|].
  unfold Rdiv. rewrite Rmult_assoc, Rinv_l; lra.
Qed.

(** From a heading in (-4 PI, -2 PI) it is the heading in degrees plus
    360, a negative angle. *)
Lemma headingDeg_negative (car : CarState) (a : R) :
  - 4 * PI < heading car < - 2 * PI ->
  headingDeg (publishedTelemetry car a) = heading car * 180 / PI + 360
  /\ headingDeg (publishedTelemetry car a) < 0.
Proof.
  intros H. simpl. pose proof PI_RGT_0 as Hpi.
  assert (Hq : -4 < heading car / PI < -2).
  { split.
    - apply (Rmult_lt_reg_r PI); [exact Hpi|].
      unfold Rdiv. rewrite Rmult_assoc, Rinv_l; lra.
    - apply (Rmult_lt_reg_r PI); [exact Hpi|].
      unfold Rdiv. rewrite Rmult_assoc, Rinv_l; lra. }
  rewrite num_rem_small_neg; rewrite degrees; lra.
Qed.

(** ** A run that publishes a negative angle *)

Lemma rerender_keeps (s : Sim) :
  carStateRef (rerender s) = carStateRef s
  /\ lastFrameRef (rerender s) = lastFrameRef s
  /\ lastPublishRef (rerender s) = lastPublishRef s
  /\ telemetry (rerender s) = telemetry s
  /\ buttons (rerender s) = buttons s.
Proof. repeat split. Qed.

(** After a render every flag is the [isActive] of its button. *)
Lemma rerender_controls (s : Sim) : controlsRef (rerender s) = activeFlags s.
Proof. reflexivity. Qed.

Lemma renderFrame_first (t : R) (s : Sim) :
  lastFrameRef s = None ->
  lastFrameRef (renderFrame true t s) = Some t
  /\ buttons (renderFrame true t s) = buttons s
  /\ carStateRef (renderFrame true t s)
     = fst (step (carStateRef s) 0 (controlsRef s)).
Proof.
  intros E. unfold renderFrame. rewrite E. simpl.
  destruct (ltb _ _); simpl; auto.
Qed.

Lemma renderFrame_next (t t0 : R) (s : Sim) :
  lastFrameRef s = Some t0 ->
  lastFrameRef (renderFrame true t s) = Some t
  /\ buttons (renderFrame true t s) = buttons s
  /\ carStateRef (renderFrame true t s)
     = fst (step (carStateRef s) ((t - t0) / 1000) (controlsRef s)).
Proof.
  intros E. unfold renderFrame. rewrite E. simpl.
  destruct (ltb _ _); simpl; auto.
Qed.

Lemma renderFrame_controls (t : R) (s : Sim) :
  controlsRef (renderFrame true t s)
  = if ltb PUBLISH_INTERVAL (t - lastPublishRef s) then activeFlags s
    else controlsRef s.
Proof.
  unfold renderFrame. cbn [negb].
  destruct (step _ _ _) as [car a]. destruct (ltb _ _); reflexivity.
Qed.

Lemma renderFrame_publishes (t : R) (s : Sim) :
  PUBLISH_INTERVAL < t - lastPublishRef s ->
  lastPublishRef (renderFrame true t s) = t
  /\ headingDeg (telemetry (renderFrame true t s))
     = headingDeg
         (publishedTelemetry (carStateRef (renderFrame true t s)) 0)
  /\ controlsRef (renderFrame true t s) = activeFlags s.
Proof.
  intros H. rewrite renderFrame_controls. unfold renderFrame. simpl.
  unfold ltb. destruct (Rlt_dec _ _); [|contradiction].
  simpl. auto.
Qed.

Lemma activeFlags_buttons (s s' : Sim) :
  buttons s' = buttons s -> activeFlags s' = activeFlags s.
Proof. intros E. unfold activeFlags. now rewrite E. Qed.

(** One second of throttle and left below 16 units of speed: the steering
    is at -1, the speed gains 6 and the heading turns left by
    PI * (v + 6) / 22. *)
Lemma throttleLeft_second (car : CarState) :
  0 <= velocity car <= 16 ->
  steering (fst (step car 1 throttleLeft)) = -1
  /\ velocity (fst (step car 1 throttleLeft)) = velocity car + 6
  /\ heading (fst (step car 1 throttleLeft))
     = heading car - PI * (velocity car + 6) / 22.
Proof.
  intros Hv.
  assert (Es : steering (fst (step car 1 throttleLeft)) = -1).
  { unfold step; simpl. unfold intendedSteer; simpl. crush_R. }
  assert (Ev : velocity (fst (step car 1 throttleLeft)) = velocity car + 6).
  { rewrite step_velocity, netAcceleration_spec.
    unfold specAcceleration, clampTo; simpl. crush_R. }
  repeat split; [exact Es | exact Ev |].
  rewrite step_heading, Es, Ev. unfold TURN_RATE. crush_R.
Qed.

(** C4 on the code. Starting the component, pressing and holding the
    throttle and left buttons and rendering four frames one second apart
    leaves the heading at -47 PI / 22, below -2 PI, and publishes
    headingDeg = -270/11, which is not in [0, 360). *)
Theorem published_heading_negative :
  heading (carStateRef (run leftTurn initialSim)) = - 47 * PI / 22
  /\ headingDeg (telemetry (run leftTurn initialSim)) = - 270 / 11
  /\ ~ (0 <= headingDeg (telemetry (run leftTurn initialSim)) < 360).
Proof.
  unfold run, leftTurn. cbn [fold_left handle].
  set (s0 := handleButton left PointerDown
               (handleButton throttle PointerDown initialSim)).
  assert (C0 : controlsRef s0 = throttleLeft) by reflexivity.
  assert (A0 : activeFlags s0 = throttleLeft) by reflexivity.
  assert (F0 : lastFrameRef s0 = None) by reflexivity.
  assert (K0 : carStateRef s0 = INITIAL_STATE) by reflexivity.
  assert (P0 : lastPublishRef s0 = 0) by reflexivity.
  destruct (renderFrame_first 1000 s0 F0) as (F1 & B1 & K1).
  destruct (renderFrame_publishes 1000 s0) as (P1 & _ & C1);
    [rewrite P0; unfold PUBLISH_INTERVAL; lra|].
  pose proof (activeFlags_buttons _ _ B1) as A1.
  set (s1 := renderFrame true 1000 s0) in *.
  rewrite A0 in C1, A1. rewrite K0, C0 in K1.
  rewrite step_zero_dt in K1
    by (unfold INITIAL_STATE; unfold_consts; simpl; lra).
  destruct (renderFrame_next 2000 1000 s1 F1) as (F2 & B2 & K2).
  destruct (renderFrame_publishes 2000 s1) as (P2 & _ & C2);
    [rewrite P1; unfold PUBLISH_INTERVAL; lra|].
  pose proof (activeFlags_buttons _ _ B2) as A2.
  set (s2 := renderFrame true 2000 s1) in *.
  rewrite A1 in C2, A2. rewrite K1, C1 in K2.
  replace ((2000 - 1000) / 1000) with 1 in K2 by lra.
  destruct (throttleLeft_second INITIAL_STATE) as (_ & V2 & H2);
    [simpl; lra|].
  rewrite <- K2 in V2, H2. simpl in V2, H2.
  destruct (renderFrame_next 3000 2000 s2 F2) as (F3 & B3 & K3).
  destruct (renderFrame_publishes 3000 s2) as (P3 & _ & C3);
    [rewrite P2; unfold PUBLISH_INTERVAL; lra|].
  pose proof (activeFlags_buttons _ _ B3) as A3.
  set (s3 := renderFrame true 3000 s2) in *.
  rewrite A2 in C3, A3. rewrite C2 in K3.
  replace ((3000 - 2000) / 1000) with 1 in K3 by lra.
  destruct (throttleLeft_second (carStateRef s2)) as (_ & V3 & H3);
    [rewrite V2; lra|].
  rewrite <- K3 in V3, H3. rewrite V2 in V3, H3. rewrite H2 in H3.
  destruct (renderFrame_next 4000 3000 s3 F3) as (F4 & B4 & K4).
  destruct (renderFrame_publishes 4000 s3) as (_ & T4 & _);
    [rewrite P3; unfold PUBLISH_INTERVAL; lra|].
  set (s4 := renderFrame true 4000 s3) in *.
  rewrite C3 in K4.
  replace ((4000 - 3000) / 1000) with 1 in K4 by lra.
  destruct (throttleLeft_second (carStateRef s3)) as (_ & V4 & H4);
    [rewrite V3; lra|].
  rewrite <- K4 in V4, H4. rewrite V3 in H4. rewrite H3 in H4.
  assert (E : heading (carStateRef s4) = - 47 * PI / 22) by (rewrite H4; lra).
  pose proof PI_RGT_0 as Hpi.
  destruct (headingDeg_negative (carStateRef s4) 0) as (D & _);
    [rewrite E; lra|].
  assert (Ed : headingDeg (telemetry s4) = - 270 / 11).
  { rewrite T4, D, E. field. lra. }
  repeat split; [exact E | exact Ed |].
  rewrite Ed. lra.
Qed.

(** ** Keyboard flags *)

(** C3, as stated, fails: ArrowUp and KeyW are both bound to throttle;
    after both are pressed and ArrowUp is released, KeyW is still held but
    the throttle flag is false. *)
Lemma release_clears_shared_flag :
  KEY_MAP "ArrowUp" = Some throttle /\ KEY_MAP "KeyW" = Some throttle
  /\ isHeld twoKeysOneReleased "KeyW" = true
  /\ anyHeld twoKeysOneReleased throttle = true
  /\ flag (controlsRef (handleKeys twoKeysOneReleased initialSim)) throttle
     = false
  /\ flag (controlsRef (handleKeys twoKeysOneReleased initialSim)) throttle
     <> anyHeld twoKeysOneReleased throttle.
Proof.
  assert (F : flag (controlsRef (handleKeys twoKeysOneReleased initialSim))
                throttle = false) by reflexivity.
  assert (A : anyHeld twoKeysOneReleased throttle = true) by reflexivity.
  repeat split; try reflexivity. rewrite F, A. discriminate.
Qed.

Lemma ControlKey_eqb_spec (a b : ControlKey) :
  ControlKey_eqb a b = true <-> a = b.
Proof. destruct a, b; simpl; split; intros H; congruence. Qed.

Lemma flag_setFlag (controls : Controls) (c c' : ControlKey) (b : bool) :
  flag (setFlag controls c' b) c
  = if ControlKey_eqb c' c then b else flag controls c.
Proof. destruct c, c'; reflexivity. Qed.

Lemma flag_handleKey (code : string) (isDown : bool) (s : Sim)
    (c : ControlKey) :
  flag (controlsRef (handleKey code isDown s)) c
  = if mapsTo code c then isDown else flag (controlsRef s) c.
Proof.
  unfold handleKey, mapsTo. destruct (KEY_MAP code) as [c'|]; simpl.
  - apply flag_setFlag.
  - reflexivity.
Qed.

Lemma handleKeys_app (events : list KeyEvent) (e : KeyEvent) (s : Sim) :
  handleKeys (events ++ [e]) s
  = handleKey (fst e) (snd e) (handleKeys events s).
Proof. unfold handleKeys. now rewrite fold_left_app. Qed.

Lemma lastFor_app (events : list KeyEvent) (e : KeyEvent) (c : ControlKey) :
  lastFor (events ++ [e]) c
  = if mapsTo (fst e) c then Some (snd e) else lastFor events c.
Proof. unfold lastFor. now rewrite fold_left_app. Qed.

(** C3, amended. For every sequence of key-down and key-up events, each
    control flag equals the down/up state of the most recent event of a key
    bound to that control, and its value before the sequence when there is
    no such event. *)
Theorem flag_follows_last_event (events : list KeyEvent) (s : Sim)
    (c : ControlKey) :
  flag (controlsRef (handleKeys events s)) c
  = match lastFor events c with
    | Some isDown => isDown
    | None => flag (controlsRef s) c
    end.
Proof.
  induction events as [|e events IH] using rev_ind; [reflexivity|].
  rewrite handleKeys_app, lastFor_app, flag_handleKey.
  destruct (mapsTo (fst e) c); [reflexivity | exact IH].
Qed.

(** In particular a key-up clears the flag of its control, whichever other
    keys bound to that control are still held. *)
Lemma release_clears_flag (events : list KeyEvent) (code : string)
    (s : Sim) (c : ControlKey) :
  KEY_MAP code = Some c ->
  flag (controlsRef (handleKeys (events ++ [(code, false)]) s)) c = false.
Proof.
  intros H. rewrite handleKeys_app, flag_handleKey. simpl.
  unfold mapsTo. rewrite H.
  now rewrite (proj2 (ControlKey_eqb_spec c c) eq_refl).
Qed.

(** Keys outside [KEY_MAP] change nothing. *)
Lemma handleKey_unbound (code : string) (isDown : bool) (s : Sim) :
  KEY_MAP code = None -> handleKey code isDown s = s.
Proof. intros H. unfold handleKey. now rewrite H. Qed.

(** ** Reset *)

(** C9 on the code. After any sequence of events a reset sets the car
    state to x = 360, y = 240, velocity = 0, heading = -PI/2 and
    steering = 0 and clears the last-frame timestamp, but the render that
    its setTelemetry causes sets every control flag to the isActive of its
    button: with the ArrowUp key held and no button pressed, the throttle
    flag is true before the reset click and false after it. *)
Theorem reset_clears_held_keys :
  (forall (events : list Event) (s : Sim),
     carStateRef (resetSimulation (run events s)) = INITIAL_STATE
     /\ lastFrameRef (resetSimulation (run events s)) = None
     /\ controlsRef (resetSimulation (run events s))
        = activeFlags (run events s))
  /\ INITIAL_STATE = mkCar 360 240 0 (- PI / 2) 0
  /\ flag (controlsRef (run [KeyDown "ArrowUp"] initialSim)) throttle = true
  /\ flag (controlsRef (run heldKeyThenReset initialSim)) throttle = false.
Proof.
  split; [intros events s; repeat split|].
  split; [|split; reflexivity].
  unfold INITIAL_STATE, CANVAS_WIDTH, CANVAS_HEIGHT.
  f_equal; lra.
Qed.

(** X22. The frame that follows a reset sees no elapsed time and leaves the
    car at its initial state. *)
Lemma frame_after_reset (t : R) (s : Sim) :
  carStateRef (renderFrame true t (resetSimulation s)) = INITIAL_STATE.
Proof.
  destruct (renderFrame_first t (resetSimulation s) eq_refl) as (_ & _ & K).
  rewrite K.
  change (carStateRef (resetSimulation s)) with INITIAL_STATE.
  apply step_zero_dt; unfold INITIAL_STATE; unfold_consts; simpl; lra.
Qed.

(** ** Steering smoothing over several steps *)

Lemma step_steering (car : CarState) (dt : R) (controls : Controls) :
  steering (fst (step car dt controls))
  = intendedSteer controls
    + (steering car - intendedSteer controls)
      * (1 - Rmin (STEERING_SMOOTHING * dt) 1).
Proof. unfold step; simpl. ring. Qed.

Lemma steps_steering (n : nat) (car : CarState) (dt : R)
    (controls : Controls) :
  steering (steps n dt controls car)
  = intendedSteer controls
    + (steering car - intendedSteer controls)
      * (1 - Rmin (STEERING_SMOOTHING * dt) 1) ^ n.
Proof.
  induction n as [|n IH].
  - simpl. ring.
  - rewrite steps_succ, step_steering, IH. simpl. ring.
Qed.

(** X1. With dt >= 0 the distance of the steering to its target never
    grows, however many steps are taken with the same dt and flags. *)
Theorem steering_distance_shrinks (n : nat) (car : CarState) (dt : R)
    (controls : Controls) :
  0 <= dt ->
  Rabs (steering (steps n dt controls car) - intendedSteer controls)
  <= Rabs (steering car - intendedSteer controls).
Proof.
  intros Hdt. rewrite steps_steering.
  pose proof (smoothing_factor_range dt Hdt) as Hk.
  set (k := Rmin (STEERING_SMOOTHING * dt) 1) in *.
  set (t := intendedSteer controls).
  replace (t + (steering car - t) * (1 - k) ^ n - t)
    with ((steering car - t) * (1 - k) ^ n) by ring.
  rewrite Rabs_mult.
  assert (Hp : 0 <= (1 - k) ^ n <= 1).
  { split; [apply pow_le; lra|].
    apply Rle_trans with (1 ^ n); [apply pow_incr; lra|].
    rewrite pow1. lra. }
  rewrite (Rabs_pos_eq ((1 - k) ^ n)) by lra.
  pose proof (Rabs_pos (steering car - t)). nra.
Qed.

Lemma steering_distance_shrinks_witness :
  Rabs (steering (steps 5 (1/60) rightOnly parked) - intendedSteer rightOnly)
  <= Rabs (steering parked - intendedSteer rightOnly).
Proof. apply (steering_distance_shrinks 5 parked (1/60) rightOnly). lra.
Defined.

(** X2. With dt >= 0 one step moves the steering towards its target and never
    past it: the new value lies between the old value and the target. *)
Theorem steering_no_overshoot (car : CarState) (dt : R)
    (controls : Controls) :
  0 <= dt ->
  Rmin (steering car) (intendedSteer controls)
    <= steering (fst (step car dt controls))
    <= Rmax (steering car) (intendedSteer controls).
Proof.
  intros Hdt. rewrite step_steering.
  pose proof (smoothing_factor_range dt Hdt) as Hk.
  set (k := Rmin (STEERING_SMOOTHING * dt) 1) in *.
  set (t := intendedSteer controls).
  unfold Rmin, Rmax. destruct (Rle_dec (steering car) t); nra.
Qed.

Lemma steering_no_overshoot_witness :
  Rmin (steering parked) (intendedSteer rightOnly)
    <= steering (fst (step parked (1/60) rightOnly))
    <= Rmax (steering parked) (intendedSteer rightOnly).
Proof. apply (steering_no_overshoot parked (1/60) rightOnly). lra. Defined.

(** X3. With left and right both held, or both released, and dt >= 0, the
    magnitude of the steering never grows, however many steps are taken. *)
Theorem steering_centres (n : nat) (car : CarState) (dt : R)
    (controls : Controls) :
  c_left controls = c_right controls ->
  0 <= dt ->
  Rabs (steering (steps n dt controls car)) <= Rabs (steering car).
Proof.
  intros Hlr Hdt. rewrite steps_steering.
  unfold intendedSteer. rewrite Hlr, eqb_reflx.
  pose proof (smoothing_factor_range dt Hdt) as Hk.
  set (k := Rmin (STEERING_SMOOTHING * dt) 1) in *.
  replace (0 + (steering car - 0) * (1 - k) ^ n)
    with (steering car * (1 - k) ^ n) by ring.
  rewrite Rabs_mult.
  assert (Hp : 0 <= (1 - k) ^ n <= 1).
  { split; [apply pow_le; lra|].
    apply Rle_trans with (1 ^ n); [apply pow_incr; lra|].
    rewrite pow1. lra. }
  rewrite (Rabs_pos_eq ((1 - k) ^ n)) by lra.
  pose proof (Rabs_pos (steering car)). nra.
Qed.

Lemma steering_centres_witness :
  Rabs (steering (steps 5 (1/60) noControls standingStart))
  <= Rabs (steering standingStart).
Proof.
  apply (steering_centres 5 standingStart (1/60) noControls);
    [reflexivity | lra].
Defined.

(** ** Velocity under held flags *)

Lemma throttle_step (car : CarState) (dt : R) (controls : Controls) :
  c_throttle controls = true -> c_reverse controls = false ->
  c_brake controls = false ->
  0 <= velocity car <= MAX_SPEED -> 0 <= dt ->
  velocity (fst (step car dt controls))
  = Rmin MAX_SPEED (velocity car + 6 * dt).
Proof.
  intros Ht Hr Hb Hv Hdt. rewrite step_velocity, netAcceleration_spec.
  unfold specAcceleration, clampTo. rewrite Ht, Hr, Hb. crush_R.
Qed.

Lemma throttle_keeps_forward (n : nat) (car : CarState) (dt : R)
    (controls : Controls) :
  c_throttle controls = true -> c_reverse controls = false ->
  c_brake controls = false ->
  0 <= velocity car <= MAX_SPEED -> 0 <= dt ->
  0 <= velocity (steps n dt controls car) <= MAX_SPEED.
Proof.
  intros Ht Hr Hb Hv Hdt. induction n as [|n IH]; [exact Hv|].
  rewrite steps_succ, throttle_step; try assumption.
  unfold MAX_SPEED, Rmin in *. destruct (Rle_dec _ _); lra.
Qed.

(** X4. With throttle alone held, from a velocity in [0, MAX_SPEED] and
    with dt >= 0, the velocity never decreases from one step to the next
    and never exceeds MAX_SPEED. *)
Theorem throttle_monotone (n : nat) (car : CarState) (dt : R)
    (controls : Controls) :
  c_throttle controls = true -> c_reverse controls = false ->
  c_brake controls = false ->
  0 <= velocity car <= MAX_SPEED -> 0 <= dt ->
  velocity (steps n dt controls car)
    <= velocity (steps (S n) dt controls car) <= MAX_SPEED.
Proof.
  intros Ht Hr Hb Hv Hdt.
  pose proof (throttle_keeps_forward n car dt controls Ht Hr Hb Hv Hdt) as Hn.
  rewrite steps_succ, throttle_step; try assumption.
  unfold MAX_SPEED, Rmin in *. destruct (Rle_dec _ _); lra.
Qed.

Lemma throttle_monotone_witness :
  velocity (steps 59 (1/60) throttleOnly parked)
    <= velocity (steps 60 (1/60) throttleOnly parked) <= MAX_SPEED.
Proof.
  apply (throttle_monotone 59 parked (1/60) throttleOnly);
    try reflexivity; unfold MAX_SPEED; simpl; lra.
Defined.

(** X5. With brake held and throttle released, a car that is at rest or
    reversing above MAX_REVERSE_SPEED is pushed further backwards by every
    step with dt > 0: the brake never holds the car at rest. *)
Theorem brake_drives_backwards (car : CarState) (dt : R)
    (controls : Controls) :
  c_brake controls = true -> c_throttle controls = false ->
  MAX_REVERSE_SPEED < velocity car <= 0 -> 0 < dt ->
  MAX_REVERSE_SPEED <= velocity (fst (step car dt controls)) < velocity car.
Proof.
  intros Hb Ht Hv Hdt. rewrite step_velocity, netAcceleration_spec.
  unfold specAcceleration, clampTo. rewrite Hb, Ht.
  destruct (c_reverse controls); crush_R.
Qed.

Lemma brake_drives_backwards_witness :
  MAX_REVERSE_SPEED <= velocity (fst (step parked (1/60) brakeOnly))
    < velocity parked.
Proof.
  apply (brake_drives_backwards parked (1/60) brakeOnly);
    try reflexivity; unfold MAX_REVERSE_SPEED; simpl; lra.
Defined.

(** X6. With throttle, reverse and brake released, a velocity within the
    bounds whose magnitude is at least 2 dt loses exactly 2 dt of
    magnitude in one step with dt >= 0. *)
Theorem coasting_decay (car : CarState) (dt : R) (controls : Controls) :
  c_throttle controls = false -> c_reverse controls = false ->
  c_brake controls = false ->
  MAX_REVERSE_SPEED <= velocity car <= MAX_SPEED ->
  0 <= dt -> 2 * dt <= Rabs (velocity car) ->
  Rabs (velocity (fst (step car dt controls)))
  = Rabs (velocity car) - 2 * dt.
Proof.
  intros Ht Hr Hb Hv Hdt Hbig. rewrite step_velocity, netAcceleration_spec.
  unfold specAcceleration, clampTo. rewrite Ht, Hr, Hb. crush_R.
Qed.

Lemma coasting_decay_witness :
  Rabs (velocity (fst (step creeping (1/60) noControls)))
  = Rabs (velocity creeping) - 2 * (1/60).
Proof.
  apply (coasting_decay creeping (1/60) noControls); try reflexivity;
    unfold creeping; unfold_consts; simpl; try lra.
  unfold Rabs. destruct (Rcase_abs _); lra.
Defined.

(** X7. With throttle, reverse and brake released, a velocity of magnitude at
    most 2 dt keeps a magnitude of at most 2 dt: the car stays in that band
    around rest. *)
Theorem coasting_band (car : CarState) (dt : R) (controls : Controls) :
  c_throttle controls = false -> c_reverse controls = false ->
  c_brake controls = false ->
  Rabs (velocity car) <= 2 * dt ->
  Rabs (velocity (fst (step car dt controls))) <= 2 * dt.
Proof.
  intros Ht Hr Hb Hsmall. rewrite step_velocity, netAcceleration_spec.
  unfold specAcceleration, clampTo. rewrite Ht, Hr, Hb.
  revert Hsmall. crush_R.
Qed.

Lemma coasting_band_witness :
  Rabs (velocity (fst (step parked (1/60) noControls))) <= 2 * (1/60).
Proof.
  apply (coasting_band parked (1/60) noControls); try reflexivity.
  unfold parked; simpl. rewrite Rabs_R0. lra.
Defined.

(** ** How far one step moves and turns the car *)







(** ** What the telemetry can show *)


(** ** Invariants of the component over any run *)

Lemma renderFrame_car (t : R) (s : Sim) :
  exists dt : R,
    carStateRef (renderFrame true t s)
    = fst (step (carStateRef s) dt (controlsRef s)).
Proof.
  destruct (lastFrameRef s) as [p|] eqn:E.
  - exists ((t - p) / 1000). now apply renderFrame_next.
  - exists 0. now apply renderFrame_first.
Qed.

Lemma renderFrame_speed (t : R) (s : Sim) :
  telemetry (renderFrame true t s) = telemetry s
  \/ speed (telemetry (renderFrame true t s))
     = Rabs (velocity (carStateRef (renderFrame true t s))) * 3.6.
Proof.
  unfold renderFrame. cbn [negb].
  destruct (step _ _ _) as [car a]. destruct (ltb _ _); simpl; auto.
Qed.

Lemma renderFrame_inBounds (surface : bool) (t : R) (s : Sim) :
  inBounds s -> inBounds (renderFrame surface t s).
Proof.
  intros H. destruct surface; [|exact H].
  destruct (renderFrame_car t s) as [dt K].
  pose proof (velocity_range (carStateRef s) dt (controlsRef s)) as Hv.
  pose proof (position_range (carStateRef s) dt (controlsRef s)) as [Hx Hy].
  rewrite <- K in Hv, Hx, Hy.
  unfold inBounds. repeat split; try tauto.
  - destruct (renderFrame_speed t s) as [T | T]; rewrite T; [apply H|].
    pose proof (Rabs_pos (velocity (carStateRef (renderFrame true t s)))).
    lra.
  - destruct (renderFrame_speed t s) as [T | T]; rewrite T; [apply H|].
    assert (Rabs (velocity (carStateRef (renderFrame true t s))) <= 22);
      [|lra].
    apply Rabs_le. unfold_consts. lra.
Qed.

Lemma handle_inBounds (s : Sim) (e : Event) :
  inBounds s -> inBounds (handle s e).
Proof.
  intros H. destruct e as [code | code | visible | c a | | surface t]; simpl.
  - unfold handleKey. destruct (KEY_MAP code); exact H.
  - unfold handleKey. destruct (KEY_MAP code); exact H.
  - unfold handleVisibility. destruct visible; exact H.
  - unfold handleButton. destruct (Bool.eqb _ _); exact H.
  - unfold inBounds, resetSimulation, INITIAL_STATE; unfold_consts; simpl.
    lra.
  - now apply renderFrame_inBounds.
Qed.

(** X13. From a component state whose car is within the velocity bounds and
    the safe rectangle and whose displayed speed is in [0, 79.2], every
    sequence of keys, buttons, visibility changes, resets and frames,
    whatever the timestamps, leads to such a state again. *)
Theorem run_keeps_bounds (events : list Event) (s : Sim) :
  inBounds s -> inBounds (run events s).
Proof.
  revert s. induction events as [|e events IH]; intros s H; [exact H|].
  simpl. apply IH, handle_inBounds, H.
Qed.

Lemma inBounds_initialSim : inBounds initialSim.
Proof.
  unfold inBounds, initialSim, INITIAL_STATE; unfold_consts; simpl. lra.
Qed.

Lemma run_keeps_bounds_witness : inBounds (run leftTurn initialSim).
Proof. apply (run_keeps_bounds leftTurn initialSim), inBounds_initialSim.
Defined.

(** X14. When the timestamps of the rendered frames never go back, the
    steering stays in [-1, 1] over every sequence of events. *)
Theorem run_keeps_steering (events : list Event) (s : Sim) :
  ordered (lastFrameRef s) events ->
  -1 <= steering (carStateRef s) <= 1 ->
  -1 <= steering (carStateRef (run events s)) <= 1.
Proof.
  revert s. induction events as [|e events IH]; intros s Ho Hs; [exact Hs|].
  simpl run. change (run (e :: events) s) with (run events (handle s e)).
  destruct e as [code | code | visible | c a | | surface t]; simpl in Ho |- *.
  - apply IH; unfold handleKey; destruct (KEY_MAP code); assumption.
  - apply IH; unfold handleKey; destruct (KEY_MAP code); assumption.
  - apply IH; unfold handleVisibility; destruct visible; assumption.
  - apply IH; unfold handleButton; destruct (Bool.eqb _ _); assumption.
  - apply IH; [exact Ho | simpl; lra].
  - destruct surface.
    + destruct Ho as [Hp Ho].
      destruct (lastFrameRef s) as [p|] eqn:E.
      * destruct (renderFrame_next t p s E) as (F & _ & K).
        apply IH; [rewrite F; exact Ho|].
        rewrite K. apply steering_range; [exact Hs | lra].
      * destruct (renderFrame_first t s E) as (F & _ & K).
        apply IH; [rewrite F; exact Ho|].
        rewrite K. apply steering_range; [exact Hs | lra].
    + apply IH; assumption.
Qed.

Lemma run_keeps_steering_witness :
  -1 <= steering (carStateRef (run leftTurn initialSim)) <= 1.
Proof.
  apply (run_keeps_steering leftTurn initialSim); simpl; [|lra].
  repeat split; lra.
Defined.

(** X15. Keys, buttons and visibility changes never touch the car, the frame
    and publish timestamps or the telemetry. *)
Theorem inputs_leave_car (events : list Event) (s : Sim) :
  forallb isInput events = true ->
  carStateRef (run events s) = carStateRef s
  /\ lastFrameRef (run events s) = lastFrameRef s
  /\ lastPublishRef (run events s) = lastPublishRef s
  /\ telemetry (run events s) = telemetry s.
Proof.
  revert s. induction events as [|e events IH]; intros s H; [now simpl|].
  simpl in H. apply andb_true_iff in H as [He H].
  change (run (e :: events) s) with (run events (handle s e)).
  destruct (IH (handle s e) H) as (A & B & C & D).
  rewrite A, B, C, D.
  destruct e as [code | code | visible | c a | | surface t];
    try discriminate He; simpl.
  - unfold handleKey. destruct (KEY_MAP code); now simpl.
  - unfold handleKey. destruct (KEY_MAP code); now simpl.
  - unfold handleVisibility. destruct visible; now simpl.
  - unfold handleButton. destruct (Bool.eqb _ _); now simpl.
Qed.

Lemma inputs_leave_car_witness :
  carStateRef (run [KeyDown "KeyW"; VisibilityChange false] initialSim)
    = carStateRef initialSim
  /\ lastFrameRef (run [KeyDown "KeyW"; VisibilityChange false] initialSim)
     = lastFrameRef initialSim
  /\ lastPublishRef (run [KeyDown "KeyW"; VisibilityChange false] initialSim)
     = lastPublishRef initialSim
  /\ telemetry (run [KeyDown "KeyW"; VisibilityChange false] initialSim)
     = telemetry initialSim.
Proof.
  apply (inputs_leave_car [KeyDown "KeyW"; VisibilityChange false]
           initialSim).
  reflexivity.
Defined.



(** ** Keyboard and visibility *)

(** X17. After the page is hidden every flag is false, and key-up events keep
    all of them false: no control stays stuck. *)
Theorem hidden_releases_all (events : list KeyEvent) (s : Sim)
    (c : ControlKey) :
  forallb (fun e => negb (snd e)) events = true ->
  flag (controlsRef (handleKeys events (handleVisibility false s))) c
  = false.
Proof.
  induction events as [|e events IH] using rev_ind; intros H.
  - now destruct c.
  - rewrite forallb_app in H. apply andb_true_iff in H as [H He].
    simpl in He. rewrite andb_true_r in He.
    rewrite handleKeys_app, flag_handleKey.
    destruct (mapsTo (fst e) c).
    + now destruct (snd e).
    + now apply IH.
Qed.

Lemma hidden_releases_all_witness :
  flag (controlsRef
          (handleKeys [("KeyW", false); ("KeyA", false)]%string
             (handleVisibility false (handleKey "KeyW" true initialSim))))
       throttle
  = false.
Proof.
  apply (hidden_releases_all [("KeyW", false); ("KeyA", false)]%string
           (handleKey "KeyW" true initialSim) throttle).
  reflexivity.
Defined.

(** X18. Events of keys outside KEY_MAP can be dropped from any sequence of key
    events without changing the resulting component state. *)
Theorem unbound_keys_ignored (events : list KeyEvent) (s : Sim) :
  handleKeys events s = handleKeys (filter isBound events) s.
Proof.
  revert s. induction events as [|e events IH]; intros s; [reflexivity|].
  change (handleKeys (e :: events) s)
    with (handleKeys events (handleKey (fst e) (snd e) s)).
  simpl filter. unfold isBound at 1.
  destruct (KEY_MAP (fst e)) as [c|] eqn:E.
  - change (handleKeys (e :: filter isBound events) s)
      with (handleKeys (filter isBound events)
              (handleKey (fst e) (snd e) s)).
    apply IH.
  - rewrite (handleKey_unbound _ _ _ E). apply IH.
Qed.

(** X19. Key events of keys bound to different controls commute. *)
Theorem distinct_controls_commute (code1 code2 : string) (d1 d2 : bool)
    (c1 c2 : ControlKey) (s : Sim) :
  KEY_MAP code1 = Some c1 -> KEY_MAP code2 = Some c2 -> c1 <> c2 ->
  handleKey code1 d1 (handleKey code2 d2 s)
  = handleKey code2 d2 (handleKey code1 d1 s).
Proof.
  intros H1 H2 Hne. unfold handleKey. rewrite H1, H2.
  unfold applyControl; simpl. f_equal.
  destruct c1, c2; try reflexivity; now contradiction Hne.
Qed.

Lemma distinct_controls_commute_witness :
  handleKey "KeyW" true (handleKey "KeyA" false initialSim)
  = handleKey "KeyA" false (handleKey "KeyW" true initialSim).
Proof.
  apply (distinct_controls_commute "KeyW" "KeyA" true false throttle left
           initialSim); [reflexivity | reflexivity | discriminate].
Defined.

(** ** Publishing *)

Lemma num_rem_small_nonneg (a b : R) :
  0 <= a < b -> num_rem a b = a.
Proof.
  intros H. unfold num_rem.
  assert (Hb : 0 < b) by lra.
  assert (E : a = b * (a / b)) by (field; lra).
  assert (Hq : 0 <= a / b < 1).
  { pose proof (Rinv_0_lt_compat b Hb). set (q := a / b) in *. nra. }
  assert (Et : Ztrunc (a / b) = 0%Z).
  { unfold Ztrunc. destruct (Rle_dec 0 (a / b)); [|lra].
    apply Zfloor_eq. simpl. lra. }
  rewrite Et. simpl. lra.
Qed.

Lemma renderFrame_first_publish (t : R) (s : Sim) :
  lastFrameRef s = None ->
  PUBLISH_INTERVAL < t - lastPublishRef s ->
  telemetry (renderFrame true t s)
  = publishedTelemetry (fst (step (carStateRef s) 0 (controlsRef s)))
                       (snd (step (carStateRef s) 0 (controlsRef s))).
Proof.
  intros E H. unfold renderFrame. rewrite E. cbn [negb].
  destruct (step _ _ _) as [car a]. unfold ltb.
  destruct (Rlt_dec _ _); [reflexivity | contradiction].
Qed.

(** X20. A reset shows speed 0, angle 0 and acceleration 0; the next
    publishing frame shows speed 0, angle 270 and the net acceleration at
    rest of the flags of the active buttons, to which the render after the
    reset has set the control flags (-2 when no button is active), with
    the car still at rest. *)
Theorem publish_after_reset (t : R) (s : Sim) :
  PUBLISH_INTERVAL < t - lastPublishRef s ->
  telemetry (resetSimulation s) = mkTelemetry 0 0 0
  /\ telemetry (renderFrame true t (resetSimulation s))
     = mkTelemetry 0 270 (netAcceleration (activeFlags s) 0)
  /\ velocity (carStateRef (renderFrame true t (resetSimulation s))) = 0.
Proof.
  intros H. split; [reflexivity|]. split.
  - rewrite renderFrame_first_publish by (try reflexivity; exact H).
    change (carStateRef (resetSimulation s)) with INITIAL_STATE.
    change (controlsRef (resetSimulation s)) with (activeFlags s).
    rewrite step_zero_dt
      by (unfold INITIAL_STATE; unfold_consts; simpl; lra).
    rewrite step_acceleration.
    unfold publishedTelemetry, INITIAL_STATE. cbn [velocity heading].
    rewrite Rabs_R0.
    replace (- PI / 2 * 180 / PI + 360) with 270
      by (field; apply PI_neq0).
    rewrite num_rem_small_nonneg by lra.
    f_equal. lra.
  - destruct (renderFrame_first t (resetSimulation s) eq_refl) as (_ & _ & K).
    rewrite K. change (carStateRef (resetSimulation s)) with INITIAL_STATE.
    rewrite step_zero_dt
      by (unfold INITIAL_STATE; unfold_consts; simpl; lra).
    reflexivity.
Qed.

Lemma publish_after_reset_witness :
  telemetry (resetSimulation initialSim) = mkTelemetry 0 0 0
  /\ telemetry (renderFrame true 1000 (resetSimulation initialSim))
     = mkTelemetry 0 270 (netAcceleration (activeFlags initialSim) 0)
  /\ velocity (carStateRef (renderFrame true 1000
                              (resetSimulation initialSim))) = 0.
Proof.
  apply (publish_after_reset 1000 initialSim).
  unfold PUBLISH_INTERVAL; simpl. lra.
Defined.

(** X21. Once a frame at time t has published, no frame up to t + 120 changes
    the telemetry: two publications are more than PUBLISH_INTERVAL
    apart. *)
Theorem publish_is_throttled (t t' : R) (s : Sim) :
  PUBLISH_INTERVAL < t - lastPublishRef s ->
  t' - t <= PUBLISH_INTERVAL ->
  telemetry (renderFrame true t' (renderFrame true t s))
  = telemetry (renderFrame true t s).
Proof.
  intros H H'.
  destruct (renderFrame_publishes t s H) as (P & _).
  set (s1 := renderFrame true t s) in *.
  unfold renderFrame. cbn [negb].
  destruct (step _ _ _) as [car a]. rewrite P. unfold ltb.
  destruct (Rlt_dec _ _); [lra | reflexivity].
Qed.

Lemma publish_is_throttled_witness :
  telemetry (renderFrame true 1016 (renderFrame true 1000 initialSim))
  = telemetry (renderFrame true 1000 initialSim).
Proof.
  apply (publish_is_throttled 1000 1016 initialSim);
    unfold PUBLISH_INTERVAL; simpl; lra.
Defined.

(** ** The control button *)

Lemma handlePointer_invariant (b : Button) (e : PointerEvent) :
  (0 <= pointerCount b)%Z ->
  (isActive b = true <-> (0 < pointerCount b)%Z) ->
  (0 <= pointerCount (handlePointer b e))%Z
  /\ (isActive (handlePointer b e) = true
      <-> (0 < pointerCount (handlePointer b e))%Z).
Proof.
  intros Hc Ha.
  assert (Hup : (0 <= pointerCount (handlePointerUp b))%Z
                /\ (isActive (handlePointerUp b) = true
                    <-> (0 < pointerCount (handlePointerUp b))%Z)).
  { unfold handlePointerUp.
    destruct (Z.eqb_spec (Z.max 0 (pointerCount b - 1)) 0) as [E | E];
      simpl.
    - rewrite E. split; [lia|]. split; [discriminate | lia].
    - split; [lia|]. split; [lia|]. intros _. apply Ha. lia. }
  destruct e; simpl; try exact Hup.
  - split; [lia|]. split; [lia | reflexivity].
  - split; [lia|]. split; [discriminate | lia].
Qed.

Lemma button_invariant (events : list PointerEvent) :
  (0 <= pointerCount (pointerRun events initialButton))%Z
  /\ (isActive (pointerRun events initialButton) = true
      <-> (0 < pointerCount (pointerRun events initialButton))%Z).
Proof.
  induction events as [|e events [IHc IHa]] using rev_ind.
  - simpl. split; [lia|]. split; [discriminate | lia].
  - unfold pointerRun in *. rewrite fold_left_app. simpl.
    now apply handlePointer_invariant.
Qed.

(** X23. After any sequence of pointer-down, pointer-up, pointer-cancel and
    window release events on a fresh button, the pointer count is not
    negative and the button is active exactly when the count is positive. *)
Theorem button_active_iff_counted (events : list PointerEvent) :
  (0 <= pointerCount (pointerRun events initialButton))%Z
  /\ (isActive (pointerRun events initialButton) = true
      <-> (0 < pointerCount (pointerRun events initialButton))%Z).
Proof. exact (button_invariant events). Qed.

Lemma pointer_downs (n : nat) (b : Button) :
  (0 <= pointerCount b)%Z ->
  pointerCount (pointerRun (repeat PointerDown n) b)
  = (pointerCount b + Z.of_nat n)%Z.
Proof.
  revert b. induction n as [|n IH]; intros b Hb.
  - simpl. lia.
  - change (pointerRun (repeat PointerDown (S n)) b)
      with (pointerRun (repeat PointerDown n) (handlePointerDown b)).
    rewrite IH; simpl; lia.
Qed.

Lemma pointer_ups (m : nat) (b : Button) :
  (0 <= pointerCount b)%Z ->
  pointerCount (pointerRun (repeat PointerUp m) b)
  = Z.max 0 (pointerCount b - Z.of_nat m).
Proof.
  revert b. induction m as [|m IH]; intros b Hb.
  - simpl. lia.
  - change (pointerRun (repeat PointerUp (S m)) b)
      with (pointerRun (repeat PointerUp m) (handlePointerUp b)).
    assert (E : pointerCount (handlePointerUp b)
                = Z.max 0 (pointerCount b - 1)).
    { unfold handlePointerUp. now destruct (_ =? _)%Z. }
    rewrite IH; rewrite E; lia.
Qed.

Lemma button_pointer_count (n m : nat) :
  pointerCount
    (pointerRun (repeat PointerDown n ++ repeat PointerUp m) initialButton)
  = Z.of_nat (n - m).
Proof.
  unfold pointerRun. rewrite fold_left_app.
  fold (pointerRun (repeat PointerDown n) initialButton).
  fold (pointerRun (repeat PointerUp m)
          (pointerRun (repeat PointerDown n) initialButton)).
  rewrite pointer_ups, pointer_downs; simpl; try lia.
  rewrite pointer_downs; simpl; lia.
Qed.

(** X24. With n pointer-downs on a fresh button followed by m pointer-ups, and
    no window release in between, the count is n - m (0 when m >= n) and
    the button is still active exactly when m < n. *)
Theorem button_released_by_last_pointer (n m : nat) :
  pointerCount
    (pointerRun (repeat PointerDown n ++ repeat PointerUp m) initialButton)
  = Z.of_nat (n - m)
  /\ isActive
       (pointerRun (repeat PointerDown n ++ repeat PointerUp m)
          initialButton)
     = (m <? n)%nat.
Proof.
  pose proof (button_pointer_count n m) as Hc.
  split; [exact Hc|].
  destruct (button_invariant (repeat PointerDown n ++ repeat PointerUp m))
    as (_ & Ha).
  rewrite Hc in Ha.
  destruct (Nat.ltb_spec m n) as [L | L].
  - apply Ha. lia.
  - destruct (isActive _); [|reflexivity].
    assert (0 < Z.of_nat (n - m))%Z by now apply Ha. lia.
Qed.

(** X25. A release on the window deactivates the button whatever its count,
    and the pointer-ups that follow, of pointers still down at that time,
    leave it inactive with count 0. *)
Theorem button_stays_cancelled (events : list PointerEvent) (b : Button) :
  forallb isLift events = true ->
  pointerRun events (cancel b) = mkButton false 0.
Proof.
  intros H. induction events as [|e events IH] using rev_ind;
    [reflexivity|].
  rewrite forallb_app in H. apply andb_true_iff in H as [H He].
  unfold pointerRun in *. rewrite fold_left_app, (IH H). simpl.
  destruct e; try reflexivity. discriminate He.
Qed.

Lemma button_stays_cancelled_witness :
  pointerRun [PointerUp; PointerCancel]
    (cancel (handlePointerDown (handlePointerDown initialButton)))
  = mkButton false 0.
Proof.
  apply (button_stays_cancelled [PointerUp; PointerCancel]
           (handlePointerDown (handlePointerDown initialButton))).
  reflexivity.
Defined.

(** ** Further instances *)

Lemma rest_is_not_fixed_witness :
  velocity (fst (step parked (1/60) brakeOnly)) <> 0.
Proof.
  apply (rest_is_not_fixed parked (1/60) brakeOnly); [reflexivity | lra].
Defined.

Lemma headingDeg_normalized_witness :
  0 <= headingDeg (publishedTelemetry INITIAL_STATE 0) < 360.
Proof.
  apply (headingDeg_normalized INITIAL_STATE 0).
  unfold INITIAL_STATE; simpl. pose proof PI_RGT_0. lra.
Defined.

End CarSimulator.
